(** * BLACKSKYMD: the package manifest [setup.py]

    The repository's Python source is one file, [setup.py]: an import from
    [setuptools] followed by a single call [setup(...)] whose keyword
    arguments are literals, except [packages], which is the result of
    [find_packages()].

    The development has four layers:
    - [FS]       : directory trees and setuptools' [find_packages];
    - [Py]       : the fragment of Python the file is written in, with an
                   evaluator that records what is handed to [setup];
    - [Pep440]   : releases and versions in full, comparison clauses and
                   specifier sets;
    - [Pep508]   : requirement strings (name, extras, specifiers, marker).
    The manifest itself, [setup_py], is the syntax tree of the file. *)

From Stdlib Require Import List String Ascii NArith Bool Lia.
Import ListNotations.
Open Scope string_scope.

Set Warnings "-register-all".

(** ** Directory trees and package discovery *)

Module FS.

Inductive node : Type :=
| File (name : string)
| Dir (name : string) (entries : list node).

Definition entry_name (n : node) : string :=
  match n with
  | File name => name
  | Dir name _ => name
  end.

Fixpoint contains_char (c : ascii) (s : string) : bool :=
  match s with
  | EmptyString => false
  | String d rest => Ascii.eqb c d || contains_char c rest
  end.

(** [PackageFinder._looks_like_package]: the directory holds a regular
    file called [__init__.py]. *)
Definition looks_like_package (entries : list node) : bool :=
  existsb (fun n => match n with
                    | File name => String.eqb name "__init__.py"
                    | Dir _ _ => false
                    end) entries.

(** [PackageFinder._find_iter] first skips every entry that is not a
    directory without a dot in its name that looks like a package. *)
Definition is_package_dir (n : node) : bool :=
  match n with
  | File _ => false
  | Dir name entries => negb (contains_char "." name) && looks_like_package entries
  end.

Definition qualify (rel name : string) : string :=
  if String.eqb rel "" then name else rel ++ "." ++ name.

(** [fnmatch.fnmatchcase] for patterns made of plain characters, [?] and
    [*]; bracket expressions are outside the fragment. *)
Fixpoint fnmatch_pattern (pat : string) : string -> bool :=
  match pat with
  | EmptyString =>
      fun s => match s with EmptyString => true | String _ _ => false end
  | String "*" pat' =>
      fix star (s : string) : bool :=
        fnmatch_pattern pat' s
        || match s with
           | EmptyString => false
           | String _ s' => star s'
           end
  | String "?" pat' =>
      fun s => match s with
               | EmptyString => false
               | String _ s' => fnmatch_pattern pat' s'
               end
  | String c pat' =>
      fun s => match s with
               | EmptyString => false
               | String d s' => Ascii.eqb c d && fnmatch_pattern pat' s'
               end
  end.

Definition fnmatchcase (item pat : string) : bool := fnmatch_pattern pat item.

(** A [_Filter] is its patterns: calling it asks whether some pattern
    matches the item, [in] asks whether the item is one of the patterns. *)
Definition filter_call (patterns : list string) (item : string) : bool :=
  existsb (fnmatchcase item) patterns.

Definition filter_in (item : string) (patterns : list string) : bool :=
  existsb (String.eqb item) patterns.

Definition ALWAYS_EXCLUDE : list string := ["ez_setup"; "*__pycache__"].

(** What [_find_iter] does with one entry of the directory being
    visited: whether it reports it, and whether it goes on below it. *)
Definition yields (exclude include : list string) (rel : string) (d : node) : bool :=
  let package := qualify rel (entry_name d) in
  is_package_dir d && filter_call include package
  && negb (filter_call exclude package).

Definition descends (exclude : list string) (rel : string) (d : node) : bool :=
  let package := qualify rel (entry_name d) in
  is_package_dir d
  && negb (filter_in (package ++ "*") exclude || filter_in (package ++ ".*") exclude).

(** [os.walk] visits a directory, where [_find_iter] reports the package
    directories that pass the filters, and then visits the directories
    kept for descent, in listing order. *)
Fixpoint find_iter (exclude include : list string) (rel : string) (n : node)
  : list string :=
  match n with
  | File _ => []
  | Dir _ entries =>
      map (fun d => qualify rel (entry_name d))
          (filter (yields exclude include rel) entries)
      ++ flat_map (fun d => if descends exclude rel d
                            then find_iter exclude include
                                   (qualify rel (entry_name d)) d
                            else []) entries
  end.

(** [find_packages()]: [PackageFinder.find] with its default arguments
    [where='.'], [exclude=()] and [include=('*',)], run with [root] as the
    current directory. *)
Definition find_packages (root : node) : list string :=
  find_iter (ALWAYS_EXCLUDE ++ []) ["*"] "" root.

(** The names [find_packages()] never reports. *)
Definition always_excluded (package : string) : bool :=
  filter_call ALWAYS_EXCLUDE package.

(** No entry of the root directory is a package directory. *)
Definition no_package_dirs (n : node) : bool :=
  match n with
  | File _ => true
  | Dir _ entries => forallb (fun d => negb (is_package_dir d)) entries
  end.

End FS.

(** ** The Python fragment *)

Module Py.

(** Expressions and statements, named after the nodes of Python's [ast]. *)
Inductive expr : Type :=
| Str (s : string)
| ListLit (elts : list expr)
| Call (func : string) (args : list expr) (keywords : list (string * expr)).

Inductive stmt : Type :=
| ImportFrom (module : string) (names : list string)
| Expr (value : expr)
| Assign (target : string) (value : expr)
| FunctionDef (name : string) (params : list string) (body : list stmt)
| ClassDef (name : string) (body : list stmt).

Inductive builtin : Type := Bsetup | Bfind_packages.

Inductive value : Type :=
| VStr (s : string)
| VList (items : list value)
| VBuiltin (b : builtin)
| VOpaque (tag : string).

(** The one effect visible outside the interpreter: [setup] receives its
    keyword arguments. *)
Inductive event : Type :=
| SetupCalled (attrs : list (string * value)).

Record state : Type := mkState {
  globals : list (string * value);
  events : list event
}.

Definition initial : state := mkState [] [].

(** State and failure: [None] is a raised exception or a construct outside
    the fragment. *)
Definition M (A : Type) : Type := state -> option (A * state).

Definition ret {A} (a : A) : M A := fun st => Some (a, st).
Definition raise {A} : M A := fun _ => None.
Definition bind {A B} (m : M A) (k : A -> M B) : M B :=
  fun st => match m st with
            | Some (a, st') => k a st'
            | None => None
            end.

Notation "x <- m ;; k" := (bind m (fun x => k))
  (at level 61, m at next level, right associativity).

Fixpoint assoc {A} (key : string) (l : list (string * A)) : option A :=
  match l with
  | [] => None
  | (k, a) :: rest => if String.eqb key k then Some a else assoc key rest
  end.

Definition lookup_name (x : string) : M value :=
  fun st => match assoc x (globals st) with
            | Some v => Some (v, st)
            | None => None
            end.

Definition bind_name (x : string) (v : value) : M unit :=
  fun st => Some (tt, mkState ((x, v) :: globals st) (events st)).

Definition emit (e : event) : M unit :=
  fun st => Some (tt, mkState (globals st) (events st ++ [e])).

(** What [setuptools] exports, as far as the file imports it. *)
Definition setuptools_export (x : string) : option value :=
  if String.eqb x "setup" then Some (VBuiltin Bsetup)
  else if String.eqb x "find_packages" then Some (VBuiltin Bfind_packages)
  else None.

Definition apply (cwd : FS.node) (callee : value) (argv : list value)
           (kwv : list (string * value)) : M value :=
  match callee, argv, kwv with
  | VBuiltin Bfind_packages, [], [] =>
      ret (VList (map VStr (FS.find_packages cwd)))
  | VBuiltin Bsetup, [], _ =>
      _ <- emit (SetupCalled kwv) ;; ret (VOpaque "Distribution")
  | _, _, _ => raise
  end.

(** Positional arguments are evaluated before keyword arguments, each
    group left to right. *)
Fixpoint eval (cwd : FS.node) (e : expr) {struct e} : M value :=
  match e with
  | Str s => ret (VStr s)
  | ListLit elts =>
      vs <- (fix eval_elts (es : list expr) : M (list value) :=
               match es with
               | [] => ret []
               | e1 :: es' =>
                   v <- eval cwd e1 ;; vs <- eval_elts es' ;; ret (v :: vs)
               end) elts ;;
      ret (VList vs)
  | Call func args keywords =>
      callee <- lookup_name func ;;
      argv <- (fix eval_args (es : list expr) : M (list value) :=
                 match es with
                 | [] => ret []
                 | e1 :: es' =>
                     v <- eval cwd e1 ;; vs <- eval_args es' ;; ret (v :: vs)
                 end) args ;;
      kwv <- (fix eval_keywords (ks : list (string * expr))
                : M (list (string * value)) :=
                match ks with
                | [] => ret []
                | (k, e1) :: ks' =>
                    v <- eval cwd e1 ;; kvs <- eval_keywords ks' ;;
                    ret ((k, v) :: kvs)
                end) keywords ;;
      apply cwd callee argv kwv
  end.

Fixpoint import_names (names : list string) : M unit :=
  match names with
  | [] => ret tt
  | x :: rest =>
      match setuptools_export x with
      | Some v => _ <- bind_name x v ;; import_names rest
      | None => raise
      end
  end.

Definition exec (cwd : FS.node) (s : stmt) : M unit :=
  match s with
  | ImportFrom module names =>
      if String.eqb module "setuptools" then import_names names else raise
  | Expr e => _ <- eval cwd e ;; ret tt
  | Assign target e => v <- eval cwd e ;; bind_name target v
  | FunctionDef name _ _ => bind_name name (VOpaque "function")
  | ClassDef _ _ => raise
  end.

Fixpoint exec_module (cwd : FS.node) (body : list stmt) : M unit :=
  match body with
  | [] => ret tt
  | s :: rest => _ <- exec cwd s ;; exec_module cwd rest
  end.

(** Running a file as a script: the events it produced, in order. *)
Definition run (cwd : FS.node) (body : list stmt) : option (list event) :=
  match exec_module cwd body initial with
  | Some (_, st) => Some (events st)
  | None => None
  end.

(** A statement that adds a definition or a variable of the file's own. *)
Definition defines (s : stmt) : bool :=
  match s with
  | ImportFrom _ _ | Expr _ => false
  | Assign _ _ | FunctionDef _ _ _ | ClassDef _ _ => true
  end.

(** The names a run leaves bound at module level, the latest first. *)
Definition bound_names (cwd : FS.node) (body : list stmt) : option (list string) :=
  match exec_module cwd body initial with
  | Some (_, st) => Some (map fst (globals st))
  | None => None
  end.

End Py.

(** ** The manifest: [setup.py] *)

Import Py.

Definition setup_py : list stmt :=
  [ ImportFrom "setuptools" ["setup"; "find_packages"];
    Expr (Call "setup" []
            [ ("name", Str "blacksky-md");
              ("version", Str "1.0.0");
              ("packages", Call "find_packages" [] []);
              ("install_requires",
                ListLit [ Str "twilio>=9.4.6";
                          Str "trafilatura>=2.0.0" ]);
              ("python_requires", Str ">=3.11") ]) ].

(** The text of the file, line by line ([dq] is the double quote). *)
Definition dq (s : string) : string := String "034" (s ++ String "034" "").

Definition setup_py_lines : list string :=
  [ "from setuptools import setup, find_packages";
    "";
    "setup(";
    "    name=" ++ dq "blacksky-md" ++ ",";
    "    version=" ++ dq "1.0.0" ++ ",";
    "    packages=find_packages(),";
    "    install_requires=[";
    "        " ++ dq "twilio>=9.4.6" ++ ",";
    "        " ++ dq "trafilatura>=2.0.0";
    "    ],";
    "    python_requires=" ++ dq ">=3.11";
    ")" ].

(** The keyword arguments of the call to [setup], as written. *)
Definition setup_keywords : list (string * expr) :=
  flat_map (fun s => match s with
                     | Expr (Call func _ keywords) =>
                         if String.eqb func "setup" then keywords else []
                     | _ => []
                     end) setup_py.

Definition str_literal (e : expr) : option string :=
  match e with
  | Str s => Some s
  | _ => None
  end.

Fixpoint str_literals (es : list expr) : option (list string) :=
  match es with
  | [] => Some []
  | e :: rest =>
      match str_literal e, str_literals rest with
      | Some s, Some ss => Some (s :: ss)
      | _, _ => None
      end
  end.

Definition keyword_str (k : string) : option string :=
  match assoc k setup_keywords with
  | Some e => str_literal e
  | None => None
  end.

Definition keyword_strs (k : string) : option (list string) :=
  match assoc k setup_keywords with
  | Some (ListLit elts) => str_literals elts
  | _ => None
  end.

Definition name : option string := keyword_str "name".
Definition version : option string := keyword_str "version".
Definition install_requires : option (list string) := keyword_strs "install_requires".
Definition python_requires : option string := keyword_str "python_requires".

(** The expression given for [packages]. *)
Definition packages : option expr := assoc "packages" setup_keywords.

(** The tree the file is shipped in: the file alone. *)
Definition supplied_tree : FS.node := FS.Dir "." [FS.File "setup.py"].

(** ** Text helpers shared by the parsers *)

Module Text.

(** [s.split(sep)] for a one-character separator: always at least one field. *)
Fixpoint split_on (sep : ascii) (s : string) : list string :=
  match s with
  | EmptyString => [""]
  | String c rest =>
      if Ascii.eqb c sep then "" :: split_on sep rest
      else match split_on sep rest with
           | [] => [String c ""]
           | field :: fields => String c field :: fields
           end
  end.

(** The text before the first [sep] and, when there is one, the text after. *)
Fixpoint cut_at (sep : ascii) (s : string) : string * option string :=
  match s with
  | EmptyString => ("", None)
  | String c rest =>
      if Ascii.eqb c sep then ("", Some rest)
      else let (before, after) := cut_at sep rest in (String c before, after)
  end.

Fixpoint lstrip (s : string) : string :=
  match s with
  | String " " rest => lstrip rest
  | _ => s
  end.

Fixpoint rstrip (s : string) : string :=
  match s with
  | EmptyString => ""
  | String c rest =>
      match rstrip rest with
      | EmptyString => if Ascii.eqb c " " then "" else String c ""
      | kept => String c kept
      end
  end.

Definition strip (s : string) : string := rstrip (lstrip s).

Definition is_digit (c : ascii) : bool :=
  let n := N_of_ascii c in ((48 <=? n) && (n <=? 57))%N.

Definition is_letter (c : ascii) : bool :=
  let n := N_of_ascii c in
  (((65 <=? n) && (n <=? 90)) || ((97 <=? n) && (n <=? 122)))%N.

Definition digit_value (c : ascii) : option N :=
  if is_digit c then Some (N_of_ascii c - 48)%N else None.

Fixpoint decimal_from (acc : N) (s : string) : option N :=
  match s with
  | EmptyString => Some acc
  | String c rest =>
      match digit_value c with
      | Some d => decimal_from (10 * acc + d)%N rest
      | None => None
      end
  end.

(** A non-empty run of decimal digits, read as a number. *)
Definition decimal (s : string) : option N :=
  match s with
  | EmptyString => None
  | _ => decimal_from 0%N s
  end.

Fixpoint traverse {A B} (f : A -> option B) (l : list A) : option (list B) :=
  match l with
  | [] => Some []
  | a :: rest =>
      match f a, traverse f rest with
      | Some b, Some bs => Some (b :: bs)
      | _, _ => None
      end
  end.

(** The longest prefix whose characters all pass [p], and what follows. *)
Fixpoint span (p : ascii -> bool) (s : string) : string * string :=
  match s with
  | EmptyString => ("", "")
  | String c rest =>
      if p c then let (taken, left) := span p rest in (String c taken, left)
      else ("", s)
  end.

Fixpoint last_char (s : string) : option ascii :=
  match s with
  | EmptyString => None
  | String c EmptyString => Some c
  | String _ rest => last_char rest
  end.

End Text.

(** ** Versions and version specifiers (PEP 440) *)

Module Pep440.

Import Text.

(** The release segment of a version: [9.4.6] is [[9; 4; 6]]. *)
Definition release : Type := list N.

Definition parse_release (s : string) : option release :=
  traverse decimal (split_on "." s).

(** The comparison key drops trailing zeros, so that [1.0] and [1.0.0] are
    the same version. *)
Fixpoint strip_trailing_zeros (r : release) : release :=
  match r with
  | [] => []
  | x :: rest =>
      match strip_trailing_zeros rest with
      | [] => if N.eqb x 0 then [] else [x]
      | kept => x :: kept
      end
  end.

(** Keys compare as Python tuples do: item by item, a proper prefix first. *)
Fixpoint tuple_compare (a b : list N) : comparison :=
  match a, b with
  | [], [] => Eq
  | [], _ :: _ => Lt
  | _ :: _, [] => Gt
  | x :: a', y :: b' =>
      match N.compare x y with
      | Eq => tuple_compare a' b'
      | c => c
      end
  end.

Definition compare (v w : release) : comparison :=
  tuple_compare (strip_trailing_zeros v) (strip_trailing_zeros w).

Definition leb (v w : release) : bool :=
  match compare v w with Gt => false | _ => true end.

Definition ltb (v w : release) : bool :=
  match compare v w with Lt => true | _ => false end.

Definition eqb (v w : release) : bool :=
  match compare v w with Eq => true | _ => false end.

(** The comparison operators of a version clause. *)
Inductive operator : Type := OpGe | OpLe | OpEq | OpNe | OpGt | OpLt.

Record clause : Type := mkClause {
  op : operator;
  bound : release
}.

Definition specifier_set : Type := list clause.

Definition satisfies (c : clause) (v : release) : bool :=
  match op c with
  | OpGe => leb (bound c) v
  | OpLe => leb v (bound c)
  | OpEq => eqb v (bound c)
  | OpNe => negb (eqb v (bound c))
  | OpGt => ltb (bound c) v
  | OpLt => ltb v (bound c)
  end.

(** A version is in a specifier set when it satisfies every clause. *)
Definition contains (s : specifier_set) (v : release) : bool :=
  forallb (fun c => satisfies c v) s.

(** An operator followed by a release; two-character operators are tried
    first.  [~=], [===] and wildcards are outside the fragment. *)
Definition parse_clause (s : string) : option clause :=
  let with_op (o : operator) (rest : string) :=
    match parse_release (strip rest) with
    | Some r => Some (mkClause o r)
    | None => None
    end in
  match strip s with
  | String ">" (String "=" rest) => with_op OpGe rest
  | String "<" (String "=" rest) => with_op OpLe rest
  | String "=" (String "=" rest) => with_op OpEq rest
  | String "!" (String "=" rest) => with_op OpNe rest
  | String ">" rest => with_op OpGt rest
  | String "<" rest => with_op OpLt rest
  | _ => None
  end.

(** Comma-separated clauses; the empty text is the empty set. *)
Definition parse_specifier_set (s : string) : option specifier_set :=
  match strip s with
  | EmptyString => Some []
  | _ => traverse parse_clause (split_on "," s)
  end.


(** *** Public versions

    A version in full: epoch, release, and the optional pre-release,
    post-release and development-release segments ([1!2.0rc1.post2.dev3]).
    Local labels are left out: the comparisons below are made on the public
    part of a version. *)

Inductive pre_letter : Type := Alpha | Beta | Candidate.

Record version : Type := mkVersion {
  epoch : N;
  release_segment : release;
  pre : option (pre_letter * N);
  post : option N;
  dev : option N
}.

(** The version a bare release stands for. *)
Definition final (r : release) : version := mkVersion 0 r None None None.

Definition is_prerelease (v : version) : bool :=
  match dev v, pre v with
  | None, None => false
  | _, _ => true
  end.

Definition is_postrelease (v : version) : bool :=
  match post v with
  | Some _ => true
  | None => false
  end.

Definition base_version (v : version) : version :=
  mkVersion (epoch v) (release_segment v) None None None.

(** A segment of the comparison key, or one of the two sentinels that
    sort below and above every segment. *)
Inductive key (A : Type) : Type :=
| NegativeInfinity
| Segment (a : A)
| Infinity.

Arguments NegativeInfinity {A}.
Arguments Segment {A} a.
Arguments Infinity {A}.

Definition cmpkey_type : Type :=
  N * list N * key (pre_letter * N) * key N * key N.

(** [_cmpkey]: a development release without pre- or post-segment sorts
    before every pre-release; a version without pre-release sorts after
    those with one, without post-release before those with one, without
    development segment after those with one. *)
Definition cmpkey (v : version) : cmpkey_type :=
  (epoch v,
   strip_trailing_zeros (release_segment v),
   match pre v, post v, dev v with
   | None, None, Some _ => NegativeInfinity
   | None, _, _ => Infinity
   | Some p, _, _ => Segment p
   end,
   match post v with
   | None => NegativeInfinity
   | Some n => Segment n
   end,
   match dev v with
   | None => Infinity
   | Some n => Segment n
   end).

(** The first difference decides. *)
Definition lex (c d : comparison) : comparison :=
  match c with
  | Eq => d
  | _ => c
  end.

Definition pair_compare {A B} (cmpA : A -> A -> comparison)
           (cmpB : B -> B -> comparison) (x y : A * B) : comparison :=
  lex (cmpA (fst x) (fst y)) (cmpB (snd x) (snd y)).

Definition key_compare {A} (cmp : A -> A -> comparison) (x y : key A)
  : comparison :=
  match x, y with
  | NegativeInfinity, NegativeInfinity => Eq
  | NegativeInfinity, _ => Lt
  | _, NegativeInfinity => Gt
  | Infinity, Infinity => Eq
  | Infinity, _ => Gt
  | _, Infinity => Lt
  | Segment a, Segment b => cmp a b
  end.

(** The letters are the strings [a], [b] and [rc], compared as text. *)
Definition letter_compare (x y : pre_letter) : comparison :=
  match x, y with
  | Alpha, Alpha | Beta, Beta | Candidate, Candidate => Eq
  | Alpha, _ => Lt
  | _, Alpha => Gt
  | Beta, Candidate => Lt
  | Candidate, Beta => Gt
  end.

Definition cmpkey_compare : cmpkey_type -> cmpkey_type -> comparison :=
  pair_compare
    (pair_compare
       (pair_compare
          (pair_compare N.compare tuple_compare)
          (key_compare (pair_compare letter_compare N.compare)))
       (key_compare N.compare))
    (key_compare N.compare).

Definition version_compare (v w : version) : comparison :=
  cmpkey_compare (cmpkey v) (cmpkey w).

Definition version_leb (v w : version) : bool :=
  match version_compare v w with Gt => false | _ => true end.

Definition version_ltb (v w : version) : bool :=
  match version_compare v w with Lt => true | _ => false end.

Definition version_eqb (v w : version) : bool :=
  match version_compare v w with Eq => true | _ => false end.

(** The operator of a clause applied to a candidate version; the bound of
    a clause is a final release.  [<] leaves out the pre-releases of the
    bound itself, [>] its post-releases. *)
Definition operator_holds (c : clause) (v : version) : bool :=
  let spec := final (bound c) in
  let same_base := version_eqb (base_version v) (base_version spec) in
  match op c with
  | OpGe => version_leb spec v
  | OpLe => version_leb v spec
  | OpEq => version_eqb v spec
  | OpNe => negb (version_eqb v spec)
  | OpGt =>
      version_ltb spec v
      && negb (negb (is_postrelease spec) && is_postrelease v && same_base)
  | OpLt =>
      version_ltb v spec
      && negb (negb (is_prerelease spec) && is_prerelease v && same_base)
  end.

(** [Specifier.prereleases]: a clause asks for pre-releases itself when
    its operator is inclusive and its bound is a pre-release. *)
Definition clause_prereleases (c : clause) : bool :=
  match op c with
  | OpEq | OpGe | OpLe => is_prerelease (final (bound c))
  | OpNe | OpGt | OpLt => false
  end.

(** [Specifier.contains(item, prereleases)]: with [None] the clause
    decides for itself whether pre-releases are admitted. *)
Definition clause_contains (prereleases : option bool) (c : clause)
           (v : version) : bool :=
  let allowed := match prereleases with
                 | Some b => b
                 | None => clause_prereleases c
                 end in
  if is_prerelease v && negb allowed then false else operator_holds c v.

(** [SpecifierSet.contains(item, prereleases)]: a pre-release is turned
    away unless pre-releases are admitted, by the caller or by one of the
    clauses; otherwise every clause has to contain the version. *)
Definition contains_version (prereleases : option bool) (s : specifier_set)
           (v : version) : bool :=
  let allowed := match prereleases with
                 | Some b => b
                 | None => existsb clause_prereleases s
                 end in
  if negb allowed && is_prerelease v then false
  else forallb (fun c => clause_contains (Some allowed) c v) s.


End Pep440.

(** ** Requirement strings (PEP 508) *)

Module Pep508.

Import Text.

Record requirement : Type := mkRequirement {
  req_name : string;
  req_extras : list string;
  req_specifier : Pep440.specifier_set;
  req_marker : option string
}.

Definition is_name_char (c : ascii) : bool :=
  is_letter c || is_digit c
  || Ascii.eqb c "-" || Ascii.eqb c "_" || Ascii.eqb c ".".

Definition is_alnum (c : ascii) : bool := is_letter c || is_digit c.

(** An identifier starts and ends with a letter or a digit. *)
Definition is_identifier (s : string) : bool :=
  match s, last_char s with
  | String c _, Some d =>
      is_alnum c && is_alnum d
      && (let (taken, left) := span is_name_char s in String.eqb left "")
  | _, _ => false
  end.

(** The bracketed extras, when the text starts with one, and the rest. *)
Definition parse_extras (s : string) : option (list string * string) :=
  match s with
  | String "[" inner =>
      match cut_at "]" inner with
      | (body, Some rest) =>
          match strip body with
          | EmptyString => Some ([], rest)
          | _ =>
              let names := map strip (split_on "," body) in
              if forallb is_identifier names then Some (names, rest) else None
          end
      | (_, None) => None
      end
  | _ => Some ([], s)
  end.

(** [name [extras] specifiers ; marker].  The marker is kept as text: what
    it means is up to the installing environment. *)
Definition parse_requirement (s : string) : option requirement :=
  let (head, marker) := cut_at ";" s in
  let (name, rest) := span is_name_char (strip head) in
  if negb (is_identifier name) then None else
  match parse_extras (lstrip rest) with
  | None => None
  | Some (extras, spec_text) =>
      match Pep440.parse_specifier_set spec_text with
      | None => None
      | Some spec =>
          match marker with
          | None => Some (mkRequirement name extras spec None)
          | Some m =>
              match strip m with
              | EmptyString => None
              | text => Some (mkRequirement name extras spec (Some text))
              end
          end
      end
  end.

(** A requirement that is a name with one [>=] bound and nothing else. *)
Definition minimum_version (r : requirement) : option (string * Pep440.release) :=
  match req_extras r, req_specifier r, req_marker r with
  | [], [Pep440.mkClause Pep440.OpGe v], None => Some (req_name r, v)
  | _, _, _ => None
  end.

Definition accepts (r : requirement) (v : Pep440.release) : bool :=
  Pep440.contains (req_specifier r) v.


(** Installing environments.  What a marker evaluates to in an environment
    is left open: the results below hold for every way of evaluating them. *)
Section Environments.

Variable environment : Type.
Variable eval_marker : environment -> string -> bool.

Definition applies (e : environment) (r : requirement) : bool :=
  match req_marker r with
  | None => true
  | Some m => eval_marker e m
  end.

(** The requirements handed to the resolver in environment [e]. *)
Definition presented (e : environment) (rs : list requirement) : list requirement :=
  filter (applies e) rs.

End Environments.

Arguments applies {environment} eval_marker e r.
Arguments presented {environment} eval_marker e rs.

End Pep508.

(** ** Semantic versions *)

Module Semver.

Import Text.

(** A numeric identifier: digits, without a leading zero unless it is [0]. *)
Definition numeric_identifier (s : string) : option N :=
  match s with
  | String "0" (String _ _) => None
  | _ => decimal s
  end.

(** [MAJOR.MINOR.PATCH]. *)
Definition parse (s : string) : option (N * N * N) :=
  match traverse numeric_identifier (split_on "." s) with
  | Some [major; minor; patch] => Some (major, minor, patch)
  | _ => None
  end.

End Semver.

(** ** What the manifest declares, read through the parsers *)

(** The entries of [install_requires], parsed. *)
Definition requirements : option (list Pep508.requirement) :=
  match install_requires with
  | Some entries => Text.traverse Pep508.parse_requirement entries
  | None => None
  end.

(** The specifier set of [python_requires]. *)
Definition requires_python : option Pep440.specifier_set :=
  match python_requires with
  | Some text => Pep440.parse_specifier_set text
  | None => None
  end.

(** The interpreter check: the running version, as the numbers of
    [sys.version_info], is in the declared specifier set.  A text that is
    not a specifier set admits no interpreter. *)
Definition python_ok (v : Pep440.release) : bool :=
  match requires_python with
  | Some spec => Pep440.contains spec v
  | None => false
  end.

(** The declared version, read as [MAJOR.MINOR.PATCH]. *)
Definition semantic_version : option (N * N * N) :=
  match version with
  | Some text => Semver.parse text
  | None => None
  end.

(** The first two numbers of a version, missing ones read as zero. *)
Definition major (v : Pep440.release) : N := nth 0 v 0%N.
Definition minor (v : Pep440.release) : N := nth 1 v 0%N.

(** ** The manifest as a record *)

(** The metadata the manifest stands for, as the interface description
    lists it: identity, discovered packages, dependency declarations and
    the minimum interpreter version. *)
Record metadata : Type := mkMetadata {
  md_name : string;
  md_version : string;
  md_packages : list string;
  md_install_requires : list string;
  md_python_requires : string
}.

Definition declared_metadata (discovered : list string) : metadata :=
  {| md_name := "blacksky-md";
     md_version := "1.0.0";
     md_packages := discovered;
     md_install_requires := ["twilio>=9.4.6"; "trafilatura>=2.0.0"];
     md_python_requires := ">=3.11" |}.

(** The keyword arguments by which a record is handed to [setup]. *)
Definition handed_over (m : metadata) : event :=
  SetupCalled
    [ ("name", VStr (md_name m));
      ("version", VStr (md_version m));
      ("packages", VList (map VStr (md_packages m)));
      ("install_requires", VList (map VStr (md_install_requires m)));
      ("python_requires", VStr (md_python_requires m)) ].

(** * Properties *)

(** Turn the outcomes of [N.compare] found in the context into facts that
    [lia] reads. *)
Ltac compare_facts :=
  repeat match goal with
         | H : (_ ?= _)%N = Eq |- _ => apply N.compare_eq_iff in H
         | H : (?a ?= ?b)%N = Lt |- _ => change (a < b)%N in H
         | H : (?a ?= ?b)%N = Gt |- _ => change (a > b)%N in H
         end.

(** ** The order on versions *)

Section VersionOrder.

Import Pep440.

Lemma tuple_compare_refl (a : list N) : tuple_compare a a = Eq.
Proof.
  induction a as [|x a IH]; simpl.
  - reflexivity.
  - now rewrite N.compare_refl.
Qed.

Lemma tuple_compare_le_trans (a : list N) :
  forall b c,
    tuple_compare a b <> Gt -> tuple_compare b c <> Gt -> tuple_compare a c <> Gt.
Proof.
  induction a as [|x a IH]; intros [|y b] [|z c]; simpl; try congruence.
  destruct (N.compare_spec x y) as [Hxy|Hxy|Hxy];
    destruct (N.compare_spec y z) as [Hyz|Hyz|Hyz];
    try congruence; intros Hab Hbc.
  - subst. rewrite N.compare_refl. now apply (IH b c).
  - subst. now rewrite (proj2 (N.compare_lt_iff y z) Hyz).
  - subst. now rewrite (proj2 (N.compare_lt_iff x z) Hxy).
  - assert (Hxz : (x < z)%N) by lia.
    now rewrite (proj2 (N.compare_lt_iff x z) Hxz).
Qed.

Lemma tuple_compare_lt_le_trans (a : list N) :
  forall b c,
    tuple_compare a b = Lt -> tuple_compare b c <> Gt -> tuple_compare a c = Lt.
Proof.
  induction a as [|x a IH]; intros [|y b] [|z c]; simpl; try congruence.
  destruct (N.compare_spec x y) as [Hxy|Hxy|Hxy];
    destruct (N.compare_spec y z) as [Hyz|Hyz|Hyz];
    try congruence; intros Hab Hbc.
  - subst. rewrite N.compare_refl. now apply (IH b c).
  - subst. now rewrite (proj2 (N.compare_lt_iff y z) Hyz).
  - subst. now rewrite (proj2 (N.compare_lt_iff x z) Hxy).
  - assert (Hxz : (x < z)%N) by lia.
    now rewrite (proj2 (N.compare_lt_iff x z) Hxz).
Qed.

Lemma tuple_compare_antisym (a : list N) :
  forall b, tuple_compare b a = CompOpp (tuple_compare a b).
Proof.
  induction a as [|x a IH]; intros [|y b]; simpl; try reflexivity.
  rewrite (N.compare_antisym x y).
  destruct (x ?= y)%N; simpl; auto.
Qed.

Lemma tuple_compare_eq (a : list N) :
  forall b, tuple_compare a b = Eq -> a = b.
Proof.
  induction a as [|x a IH]; intros [|y b]; simpl; try congruence.
  destruct (x ?= y)%N eqn:E; try discriminate.
  compare_facts. intro H. f_equal; auto.
Qed.

Lemma leb_refl (v : release) : leb v v = true.
Proof. unfold leb, compare. now rewrite tuple_compare_refl. Qed.

Lemma leb_trans (u v w : release) :
  leb u v = true -> leb v w = true -> leb u w = true.
Proof.
  unfold leb, compare. intros Huv Hvw.
  assert (H : tuple_compare (strip_trailing_zeros u) (strip_trailing_zeros w) <> Gt).
  { apply tuple_compare_le_trans with (b := strip_trailing_zeros v).
    - intro E; rewrite E in Huv; discriminate.
    - intro E; rewrite E in Hvw; discriminate. }
  destruct (tuple_compare (strip_trailing_zeros u) (strip_trailing_zeros w));
    congruence.
Qed.

Lemma leb_total (v w : release) : leb v w = true \/ leb w v = true.
Proof.
  unfold leb, compare.
  rewrite (tuple_compare_antisym (strip_trailing_zeros v) (strip_trailing_zeros w)).
  destruct (tuple_compare (strip_trailing_zeros v) (strip_trailing_zeros w));
    simpl; auto.
Qed.

(** Two versions below each other differ in trailing zeros only. *)
Lemma leb_antisym (v w : release) :
  leb v w = true -> leb w v = true ->
  strip_trailing_zeros v = strip_trailing_zeros w.
Proof.
  unfold leb, compare.
  rewrite (tuple_compare_antisym (strip_trailing_zeros v) (strip_trailing_zeros w)).
  destruct (tuple_compare (strip_trailing_zeros v) (strip_trailing_zeros w)) eqn:E;
    simpl; try discriminate.
  intros _ _. now apply tuple_compare_eq.
Qed.


(** Dropping trailing zeros changes no position of a version when missing
    positions read as zero. *)
Lemma nth_strip_trailing_zeros (r : release) :
  forall i, nth i (strip_trailing_zeros r) 0%N = nth i r 0%N.
Proof.
  induction r as [|x r IH]; intro i; simpl.
  - reflexivity.
  - destruct (strip_trailing_zeros r) as [|k kept] eqn:E.
    + destruct (N.eqb_spec x 0) as [->|_].
      * destruct i as [|i]; simpl; [reflexivity|].
        rewrite <- IH. now destruct i.
      * destruct i as [|i]; simpl; [reflexivity|].
        rewrite <- IH. now destruct i.
    + destruct i as [|i]; simpl; [reflexivity|]. apply IH.
Qed.

(** A stripped key does not end in a zero. *)
Lemma strip_trailing_zeros_last (r : release) :
  last (strip_trailing_zeros r) 1%N <> 0%N.
Proof.
  induction r as [|x r IH]; simpl.
  - discriminate.
  - destruct (strip_trailing_zeros r) as [|k kept] eqn:E.
    + destruct (N.eqb_spec x 0) as [->|Hx]; simpl; [discriminate|exact Hx].
    + exact IH.
Qed.



(** The order is on numbers, not on text: 3.9 is below 3.11; and trailing
    zeros do not count. *)
Example release_3_9_below_3_11 :
  leb [3; 9]%N [3; 11]%N = true /\ leb [3; 11]%N [3; 9]%N = false
  /\ compare [1; 0; 0]%N [1]%N = Eq.
Proof. repeat split; reflexivity. Qed.

(** An upper bound is not kept by later versions. *)
Example upper_bound_not_upward :
  let c := mkClause OpLe [1; 0]%N in
  satisfies c [1; 0]%N = true /\ leb [1; 0]%N [2]%N = true
  /\ satisfies c [2]%N = false.
Proof. repeat split; reflexivity. Qed.

End VersionOrder.

(** ** The order on versions in full *)

(** A comparison is an order when equal means identical, every item equals
    itself, and "below" is transitive.  Pairs and keys inherit this. *)
Section PairOrder.

Import Pep440.

Variables (A B : Type).
Variable cmpA : A -> A -> comparison.
Variable cmpB : B -> B -> comparison.
Hypothesis eqA : forall a b, cmpA a b = Eq -> a = b.
Hypothesis reflA : forall a, cmpA a a = Eq.
Hypothesis transA : forall a b c, cmpA a b = Lt -> cmpA b c = Lt -> cmpA a c = Lt.
Hypothesis eqB : forall a b, cmpB a b = Eq -> a = b.
Hypothesis reflB : forall a, cmpB a a = Eq.
Hypothesis transB : forall a b c, cmpB a b = Lt -> cmpB b c = Lt -> cmpB a c = Lt.

Lemma pair_compare_eq (x y : A * B) : pair_compare cmpA cmpB x y = Eq -> x = y.
Proof.
  destruct x as [a b], y as [a' b']. unfold pair_compare, lex. simpl.
  destruct (cmpA a a') eqn:Ea; try discriminate.
  intro Eb. apply eqA in Ea. apply eqB in Eb. now subst.
Qed.

Lemma pair_compare_refl (x : A * B) : pair_compare cmpA cmpB x x = Eq.
Proof.
  unfold pair_compare, lex. now rewrite reflA, reflB.
Qed.

Lemma pair_compare_lt_trans (x y z : A * B) :
  pair_compare cmpA cmpB x y = Lt -> pair_compare cmpA cmpB y z = Lt ->
  pair_compare cmpA cmpB x z = Lt.
Proof.
  destruct x as [a b], y as [a' b'], z as [a'' b''].
  unfold pair_compare, lex. simpl.
  destruct (cmpA a a') eqn:E1; try discriminate;
    destruct (cmpA a' a'') eqn:E2; try discriminate; intros H1 H2.
  - apply eqA in E1, E2. subst. rewrite reflA. now apply transB with b'.
  - apply eqA in E1. subst. now rewrite E2.
  - apply eqA in E2. subst. now rewrite E1.
  - now rewrite (transA _ _ _ E1 E2).
Qed.

End PairOrder.

Section KeyOrder.

Import Pep440.

Variable A : Type.
Variable cmp : A -> A -> comparison.
Hypothesis cmp_eq : forall a b, cmp a b = Eq -> a = b.
Hypothesis cmp_refl : forall a, cmp a a = Eq.
Hypothesis cmp_trans : forall a b c, cmp a b = Lt -> cmp b c = Lt -> cmp a c = Lt.

Lemma key_compare_eq (x y : key A) : key_compare cmp x y = Eq -> x = y.
Proof.
  destruct x, y; simpl; try discriminate; try reflexivity.
  intro E. now rewrite (cmp_eq _ _ E).
Qed.

Lemma key_compare_refl (x : key A) : key_compare cmp x x = Eq.
Proof. destruct x; simpl; auto. Qed.

Lemma key_compare_lt_trans (x y z : key A) :
  key_compare cmp x y = Lt -> key_compare cmp y z = Lt ->
  key_compare cmp x z = Lt.
Proof.
  destruct x, y, z; simpl; try discriminate; try reflexivity.
  apply cmp_trans.
Qed.


End KeyOrder.

Section FullVersionOrder.

Import Pep440.

Lemma N_compare_lt_trans (a b c : N) :
  (a ?= b)%N = Lt -> (b ?= c)%N = Lt -> (a ?= c)%N = Lt.
Proof.
  intros H1 H2. compare_facts. apply N.compare_lt_iff. lia.
Qed.

Lemma tuple_compare_lt_trans (a b c : list N) :
  tuple_compare a b = Lt -> tuple_compare b c = Lt -> tuple_compare a c = Lt.
Proof.
  intros H1 H2. apply tuple_compare_lt_le_trans with (b := b); congruence.
Qed.

Lemma letter_compare_eq (x y : pre_letter) : letter_compare x y = Eq -> x = y.
Proof. destruct x, y; simpl; congruence. Qed.

Lemma letter_compare_refl (x : pre_letter) : letter_compare x x = Eq.
Proof. now destruct x. Qed.

Lemma letter_compare_lt_trans (x y z : pre_letter) :
  letter_compare x y = Lt -> letter_compare y z = Lt -> letter_compare x z = Lt.
Proof. destruct x, y, z; simpl; congruence. Qed.

(** The laws of the key order, component by component. *)
Ltac order_laws :=
  repeat first
    [ exact N.compare_eq | exact N.compare_refl | exact N_compare_lt_trans
    | exact tuple_compare_eq | exact tuple_compare_refl
    | exact tuple_compare_lt_trans
    | exact letter_compare_eq | exact letter_compare_refl
    | exact letter_compare_lt_trans
    | apply pair_compare_eq | apply pair_compare_refl
    | apply pair_compare_lt_trans
    | apply key_compare_eq | apply key_compare_refl
    | apply key_compare_lt_trans ].


Lemma cmpkey_compare_refl (x : cmpkey_type) : cmpkey_compare x x = Eq.
Proof. revert x. unfold cmpkey_compare. order_laws. Qed.


Lemma version_leb_refl (v : version) : version_leb v v = true.
Proof. unfold version_leb, version_compare. now rewrite cmpkey_compare_refl. Qed.


(** On final releases the order is the order on releases. *)
Lemma version_compare_final (a b : release) :
  version_compare (final a) (final b) = compare a b.
Proof.
  unfold version_compare, cmpkey_compare, pair_compare, cmpkey, compare. simpl.
  destruct (tuple_compare (strip_trailing_zeros a) (strip_trailing_zeros b));
    reflexivity.
Qed.







(** 1.0.dev1 < 1.0a1 < 1.0rc1 < 1.0 < 1.0.post1 < 1.1 < 1!0.1. *)
Example version_order_chain :
  let v (e : N) (r : release) pre post dev := mkVersion e r pre post dev in
  let chain :=
    [ v 0%N [1; 0]%N None None (Some 1%N);
      v 0%N [1; 0]%N (Some (Alpha, 1%N)) None None;
      v 0%N [1; 0]%N (Some (Candidate, 1%N)) None None;
      v 0%N [1; 0]%N None None None;
      v 0%N [1; 0]%N None (Some 1%N) None;
      v 0%N [1; 1]%N None None None;
      v 1%N [0; 1]%N None None None ] in
  map (fun p => version_ltb (fst p) (snd p))
      (combine chain (tl chain))
  = [true; true; true; true; true; true].
Proof. reflexivity. Qed.

(** [>=1.2.3] on 1.2.3, 1.0.0 and 1.3.0a1, by default and with
    pre-releases admitted. *)
Example contains_version_prerelease_policy :
  let s := [mkClause OpGe [1; 2; 3]%N] in
  let v130a1 := mkVersion 0 [1; 3; 0]%N (Some (Alpha, 1%N)) None None in
  contains_version None s (final [1; 2; 3]%N) = true
  /\ contains_version None s (final [1; 0; 0]%N) = false
  /\ contains_version None s v130a1 = false
  /\ contains_version (Some true) s v130a1 = true.
Proof. repeat split; reflexivity. Qed.

(** [>1.0] leaves out 1.0.post1 and takes 1.1.post1; [<3.1] leaves out
    3.1.dev0 and takes 3.0.dev0, pre-releases admitted. *)
Example strict_operators_same_base :
  let gt := mkClause OpGt [1; 0]%N in
  let lt := mkClause OpLt [3; 1]%N in
  operator_holds gt (mkVersion 0 [1; 0]%N None (Some 1%N) None) = false
  /\ operator_holds gt (mkVersion 0 [1; 1]%N None (Some 1%N) None) = true
  /\ operator_holds lt (mkVersion 0 [3; 1]%N None None (Some 0%N)) = false
  /\ operator_holds lt (mkVersion 0 [3; 0]%N None None (Some 0%N)) = true.
Proof. repeat split; reflexivity. Qed.

End FullVersionOrder.

(** ** The parsers on other inputs *)

Example requirement_with_extras_and_marker :
  Pep508.parse_requirement
    "requests[security, socks] >= 2.8.1, <3 ; python_version < '3.8'"
  = Some (Pep508.mkRequirement "requests" ["security"; "socks"]
            [ Pep440.mkClause Pep440.OpGe [2; 8; 1]%N;
              Pep440.mkClause Pep440.OpLt [3]%N ]
            (Some "python_version < '3.8'")).
Proof. reflexivity. Qed.

Example requirement_rejected :
  Pep508.parse_requirement ">=1.0" = None
  /\ Pep508.parse_requirement "twilio>=" = None
  /\ Pep508.parse_requirement "twilio>=9..6" = None
  /\ Pep508.parse_requirement "twilio=>9.4.6" = None.
Proof. repeat split; reflexivity. Qed.

Example semver_rejected :
  Semver.parse "1.0" = None /\ Semver.parse "1.0.0.0" = None
  /\ Semver.parse "01.0.0" = None /\ Semver.parse "1.0.x" = None.
Proof. repeat split; reflexivity. Qed.

(** A marker makes the presented requirements depend on the environment. *)
Example marker_depends_on_environment :
  let r := Pep508.mkRequirement "pywin32" [] [] (Some "win32") in
  let eval_marker (platform : string) (m : string) := String.eqb platform m in
  Pep508.presented eval_marker "win32" [r] = [r]
  /\ Pep508.presented eval_marker "linux" [r] = [].
Proof. split; reflexivity. Qed.

(** ** Package discovery *)

Section Discovery.

Import FS.

(** Without a package directory at the top there is nothing to report and
    nothing to descend into. *)
Lemma find_iter_no_package_dirs (exclude include : list string)
      (rel : string) (n : node) :
  no_package_dirs n = true -> find_iter exclude include rel n = [].
Proof.
  destruct n as [f|d entries]; simpl; [reflexivity|].
  induction entries as [|e entries IH]; simpl; [reflexivity|].
  intro H. apply andb_true_iff in H as [He Hrest].
  apply negb_true_iff in He.
  unfold yields, descends. rewrite He. simpl.
  now apply IH.
Qed.

(** Packages are reported level by level; a directory with a dot in its
    name, or without [__init__.py], is neither reported nor entered. *)
Lemma fnmatchcase_star (item : string) : fnmatchcase item "*" = true.
Proof.
  unfold fnmatchcase.
  induction item as [|c item IH]; [reflexivity|exact IH].
Qed.

(** A top-level package directory is reported unless its name is one of
    the names always left out. *)
Lemma find_packages_top_level (root : string) (entries : list node) (d : node) :
  In d entries ->
  is_package_dir d = true ->
  always_excluded (entry_name d) = false ->
  In (entry_name d) (find_packages (Dir root entries)).
Proof.
  intros Hin Hpkg Hex. unfold find_packages.
  change (ALWAYS_EXCLUDE ++ [])%list with ALWAYS_EXCLUDE. simpl find_iter.
  apply in_or_app. left.
  change (entry_name d) with (qualify "" (entry_name d)).
  apply (in_map (fun d0 => qualify "" (entry_name d0))).
  apply filter_In. split; [exact Hin|].
  unfold yields. rewrite Hpkg.
  change (qualify "" (entry_name d)) with (entry_name d).
  unfold always_excluded in Hex. rewrite Hex.
  unfold filter_call at 1. cbn [existsb]. now rewrite fnmatchcase_star.
Qed.

Example find_packages_nested :
  find_packages
    (Dir "." [ File "setup.py";
               Dir "app" [ File "__init__.py";
                           Dir "core" [File "__init__.py"];
                           Dir "data" [File "table.csv"] ];
               Dir "build.tmp" [File "__init__.py"];
               Dir "tools" [File "__init__.py"] ])
  = ["app"; "tools"; "app.core"].
Proof. reflexivity. Qed.

(** [ez_setup] at the top and every [__pycache__] are left out of the
    report, yet what lies below them is still visited. *)
Example find_packages_always_excluded :
  find_packages
    (Dir "." [ Dir "ez_setup" [ File "__init__.py";
                                Dir "helpers" [File "__init__.py"] ];
               Dir "app" [ File "__init__.py";
                           Dir "__pycache__" [File "__init__.py"];
                           Dir "ez_setup" [File "__init__.py"] ] ])
  = ["app"; "ez_setup.helpers"; "app.ez_setup"].
Proof. reflexivity. Qed.

End Discovery.

(** ** The interpreter bound *)

Section InterpreterBound.

Import Pep440.

Lemma python_ok_leb (v : release) : python_ok v = leb [3; 11]%N v.
Proof.
  unfold python_ok. simpl. apply andb_true_r.
Qed.

Lemma leb_3_11_spelled_out (v : release) :
  leb [3; 11]%N v = true
  <-> (3 < major v \/ (major v = 3 /\ 11 <= minor v))%N.
Proof.
  unfold leb, compare, major, minor.
  rewrite <- (nth_strip_trailing_zeros v 0), <- (nth_strip_trailing_zeros v 1).
  change (strip_trailing_zeros [3; 11]%N) with [3; 11]%N.
  destruct (strip_trailing_zeros v) as [|x [|y t]]; cbn [tuple_compare nth].
  - split; [discriminate|lia].
  - destruct (3 ?= x)%N eqn:E; compare_facts; split; (discriminate || lia || auto).
  - destruct (3 ?= x)%N eqn:E; compare_facts;
      [|split; (discriminate || lia || auto)..].
    destruct (11 ?= y)%N eqn:E'; compare_facts;
      [|split; (discriminate || lia || auto)..].
    destruct t; split; (discriminate || lia || auto).
Qed.

End InterpreterBound.

(** ** The declarations of the manifest *)

(** C4: the declared package name is the identifier [blacksky-md], and it
    is not the empty string. *)
Theorem name_is_blacksky_md :
  name = Some "blacksky-md"
  /\ option_map (fun s => String.eqb s "") name = Some false
  /\ option_map String.length name = Some 11.
Proof.
  repeat split; reflexivity.
Qed.

(** C5: the declared version string is [1.0.0], and it reads as a semantic
    version: three dot-separated non-negative integers, here 1, 0 and 0. *)
Theorem version_is_semantic_1_0_0 :
  version = Some "1.0.0"
  /\ semantic_version = Some (1, 0, 0)%N
  /\ option_map (Text.split_on ".") version = Some ["1"; "0"; "0"].
Proof.
  repeat split; reflexivity.
Qed.

(** C1: [install_requires] is exactly a list of two entries; the first
    parses as the name [twilio] with the single bound [>= 9.4.6], the
    second as the name [trafilatura] with the single bound [>= 2.0.0]; each
    accepts a version exactly when it is at least that minimum. *)
Theorem install_requires_two_minimum_versions :
  install_requires = Some ["twilio>=9.4.6"; "trafilatura>=2.0.0"]
  /\ exists r1 r2,
       requirements = Some [r1; r2]
       /\ Pep508.minimum_version r1 = Some ("twilio", [9; 4; 6]%N)
       /\ Pep508.minimum_version r2 = Some ("trafilatura", [2; 0; 0]%N)
       /\ forall v,
            Pep508.accepts r1 v = Pep440.leb [9; 4; 6]%N v
            /\ Pep508.accepts r2 v = Pep440.leb [2; 0; 0]%N v.
Proof.
  split; [reflexivity|].
  do 2 eexists. split; [reflexivity|].
  repeat split; unfold Pep508.accepts; simpl; apply andb_true_r.
Qed.

(** C2: the declared interpreter requirement is [>=3.11]: a version passes
    the check if and only if it is at least 3.11 in the version order, that
    is, its major number is above 3, or is 3 with a minor number of 11 or
    more. *)
Theorem python_requires_at_least_3_11 :
  python_requires = Some ">=3.11"
  /\ requires_python = Some [Pep440.mkClause Pep440.OpGe [3; 11]%N]
  /\ forall v,
       (python_ok v = true <-> Pep440.leb [3; 11]%N v = true)
       /\ (python_ok v = true
           <-> (3 < major v \/ (major v = 3 /\ 11 <= minor v))%N).
Proof.
  split; [reflexivity|]. split; [reflexivity|].
  intro v. rewrite python_ok_leb. split.
  - reflexivity.
  - apply leb_3_11_spelled_out.
Qed.

(** C7: the [packages] argument is the call [find_packages()]; the tree the
    file comes in has no package directory, and discovery over it returns
    the empty list. *)
Theorem find_packages_discovers_nothing :
  packages = Some (Call "find_packages" [] [])
  /\ FS.no_package_dirs supplied_tree = true
  /\ FS.find_packages supplied_tree = [].
Proof.
  split; [reflexivity|].
  split; [reflexivity|].
  apply find_iter_no_package_dirs. reflexivity.
Qed.

(** C8: whatever the current directory holds, running the file does one
    thing: it hands to [setup] the declared record (name, version,
    discovered packages, dependency constraints, minimum interpreter
    version).  The file has twelve lines, none of its statements defines a
    function, a class or a variable, and the only names bound afterwards
    are the two it imported. *)
Theorem setup_py_is_declarative :
  forall cwd : FS.node,
    run cwd setup_py
      = Some [handed_over (declared_metadata (FS.find_packages cwd))]
    /\ existsb defines setup_py = false
    /\ bound_names cwd setup_py = Some ["find_packages"; "setup"]
    /\ List.length setup_py_lines = 12%nat.
Proof.
  intro cwd. repeat split; reflexivity.
Qed.




(** C10: no declared dependency carries a marker or extras, the manifest
    declares no [extras_require], and [python_requires] is a plain
    specifier set.  Hence in any two environments that pass the
    interpreter check, and however markers are evaluated, the requirements
    presented for resolution are the same: all the declared ones. *)
Theorem presented_requirements_environment_independent :
  forall (environment : Type)
         (interpreter : environment -> Pep440.release)
         (eval_marker : environment -> string -> bool)
         (reqs : list Pep508.requirement)
         (e1 e2 : environment),
    requirements = Some reqs ->
    python_ok (interpreter e1) = true ->
    python_ok (interpreter e2) = true ->
    Pep508.presented eval_marker e1 reqs = Pep508.presented eval_marker e2 reqs
    /\ Pep508.presented eval_marker e1 reqs = reqs
    /\ map Pep508.req_marker reqs = [None; None]
    /\ map Pep508.req_extras reqs = [[]; []]
    /\ assoc "extras_require" setup_keywords = None
    /\ option_map (Text.cut_at ";") python_requires = Some (">=3.11", None).
Proof.
  intros environment interpreter eval_marker reqs e1 e2 Hreqs _ _.
  vm_compute in Hreqs. injection Hreqs as <-.
  repeat split; reflexivity.
Qed.

Lemma presented_requirements_environment_independent_witness :
  let linux : Pep440.release * string := ([3; 11; 4]%N, "linux") in
  let win32 : Pep440.release * string := ([3; 12; 0]%N, "win32") in
  let eval_marker (e : Pep440.release * string) (m : string) :=
    String.eqb m ("sys_platform == '" ++ snd e ++ "'") in
  let reqs :=
    [ Pep508.mkRequirement "twilio" []
        [Pep440.mkClause Pep440.OpGe [9; 4; 6]%N] None;
      Pep508.mkRequirement "trafilatura" []
        [Pep440.mkClause Pep440.OpGe [2; 0; 0]%N] None ] in
  requirements = Some reqs
  /\ python_ok (fst linux) = true
  /\ python_ok (fst win32) = true
  /\ Pep508.presented eval_marker linux reqs
     = Pep508.presented eval_marker win32 reqs.
Proof.
  intros linux win32 eval_marker reqs.
  split; [reflexivity|].
  split; [reflexivity|].
  split; [reflexivity|].
  apply (presented_requirements_environment_independent
           (Pep440.release * string) fst eval_marker reqs linux win32
           eq_refl eq_refl eq_refl).
Defined.

(** * Further properties of the manifest *)

(** ** The interpreter bound has no upper end *)

(** X2: an interpreter version that passes the check of [python_requires]
    keeps passing it when replaced by any version at least as high. *)
Theorem python_requires_upward_closed :
  forall v v' : Pep440.release,
    python_ok v = true -> Pep440.leb v v' = true -> python_ok v' = true.
Proof.
  intros v v'. rewrite !python_ok_leb. apply leb_trans.
Qed.

Lemma python_requires_upward_closed_witness :
  python_ok [3; 11]%N = true
  /\ Pep440.leb [3; 11]%N [3; 13; 1]%N = true
  /\ python_ok [3; 13; 1]%N = true.
Proof.
  split; [reflexivity|].
  split; [reflexivity|].
  apply (python_requires_upward_closed [3; 11]%N [3; 13; 1]%N); reflexivity.
Defined.

(** ** What [packages=find_packages()] hands over *)

(** X1: run in a directory whose top level has no package directory, the
    file declares the distribution without any package.  Plain files
    beside [setup.py], and packages below a directory that is not itself a
    package, do not reach [setup]. *)
Theorem packages_empty_without_package_dirs :
  forall cwd : FS.node,
    FS.no_package_dirs cwd = true ->
    FS.find_packages cwd = []
    /\ run cwd setup_py = Some [handed_over (declared_metadata [])].
Proof.
  intros cwd H.
  assert (E : FS.find_packages cwd = [])
    by now apply find_iter_no_package_dirs.
  split; [exact E|].
  change (run cwd setup_py)
    with (Some [handed_over (declared_metadata (FS.find_packages cwd))]).
  now rewrite E.
Qed.

Lemma packages_empty_without_package_dirs_witness :
  let cwd :=
    FS.Dir "." [ FS.File "setup.py"; FS.File "bot.py";
                 FS.Dir "src" [FS.Dir "blacksky" [FS.File "__init__.py"]] ] in
  FS.no_package_dirs cwd = true
  /\ run cwd setup_py = Some [handed_over (declared_metadata [])].
Proof.
  intro cwd. split; [reflexivity|].
  apply (packages_empty_without_package_dirs cwd). reflexivity.
Defined.

(** X3: every package directory at the top level of the directory the
    file is run in is among the packages handed to [setup], unless its
    name is [ez_setup] or ends in [__pycache__]. *)
Theorem top_level_packages_handed_over :
  forall (root : string) (entries : list FS.node) (d : FS.node),
    In d entries ->
    FS.is_package_dir d = true ->
    FS.always_excluded (FS.entry_name d) = false ->
    exists pkgs : list string,
      run (FS.Dir root entries) setup_py
        = Some [handed_over (declared_metadata pkgs)]
      /\ In (FS.entry_name d) pkgs.
Proof.
  intros root entries d Hin Hpkg Hex.
  exists (FS.find_packages (FS.Dir root entries)). split.
  - reflexivity.
  - now apply find_packages_top_level.
Qed.

Lemma top_level_packages_handed_over_witness :
  let d := FS.Dir "blacksky" [FS.File "__init__.py"; FS.File "bot.py"] in
  let entries := [FS.File "setup.py"; d] in
  In d entries
  /\ FS.is_package_dir d = true
  /\ FS.always_excluded (FS.entry_name d) = false
  /\ exists pkgs : list string,
       run (FS.Dir "." entries) setup_py
         = Some [handed_over (declared_metadata pkgs)]
       /\ In (FS.entry_name d) pkgs.
Proof.
  intros d entries.
  split; [simpl; auto|].
  split; [reflexivity|].
  split; [reflexivity|].
  apply (top_level_packages_handed_over "." entries d);
    [simpl; auto|reflexivity|reflexivity].
Defined.
